(** * The NgModule definition emitter of [render3/r3_module_compiler.ts]

    A shallow embedding of [compileNgModule],
    [compileNgModuleDeclarationExpression], [createNgModuleType],
    [generateSetNgModuleScopeCall] and [tupleTypeOf], together with the
    small part of the output AST and of the helper classes they use, and the
    properties of the emitted definition map, type and statements. *)

From Stdlib Require Import String List Bool Arith Lia.
Import ListNotations.
Local Open Scope string_scope.
Local Open Scope list_scope.
Local Open Scope nat_scope.
Set Warnings "-register-all".

(** ** Well-known runtime symbols *)

(** Modelled from the spec: the identifier table [r3_identifiers] is not among
    the sources ("a lookup by logical name"); the four symbols the module
    compiler imports are kept as four distinct logical names. *)
Module R3.
Inductive Identifiers : Set :=
| defineNgModule
| setNgModuleScope
| registerNgModuleType
| NgModuleDeclaration.
End R3.

(** ** Output AST *)

(** Modelled from the spec: [output_ast] is an external collaborator ("literal
    maps, function calls, function expressions, imports-by-symbol, array
    literals"); the constructors below are the ones the module compiler
    builds, named as the source names them. *)
Module o.

(** A ready-made value handed over by the declaration path. *)
Inductive OpaqueValue : Set :=
| Opaque (name : string)
| OpaqueNull
| OpaqueArray (items : list OpaqueValue).

Inductive BinaryOperator : Set := And | Or.

Inductive BuiltinTypeName : Set := BuiltinNone.

Inductive Expression : Set :=
| ReadVarExpr (name : string)
| ExternalExpr (value : R3.Identifiers) (typeParams : option (list Type_))
| InvokeFunctionExpr (fn : Expression) (args : list Expression) (pure : bool)
| LiteralArrayExpr (entries : list Expression)
| LiteralMapExpr (entries : list (string * Expression))
| FunctionExpr (params : list string) (statements : list Statement)
| BinaryOperatorExpr (operator : BinaryOperator) (lhs rhs : Expression)
| TypeofExpr (expr : Expression)
| WrappedNodeExpr (node : OpaqueValue)
with Statement : Set :=
| ExpressionStatement (expr : Expression)
| ReturnStatement (value : Expression)
with Type_ : Set :=
| BuiltinType (name : BuiltinTypeName)
| ExpressionType (value : Expression).

(** [o.importExpr(id, typeParams = null)] *)
Definition importExpr (id : R3.Identifiers) (typeParams : option (list Type_))
  : Expression :=
  ExternalExpr id typeParams.

(** [o.literalArr(values)] *)
Definition literalArr (values : list Expression) : Expression :=
  LiteralArrayExpr values.

(** [o.literalMap(values)] *)
Definition literalMap (values : list (string * Expression)) : Expression :=
  LiteralMapExpr values.

(** [o.typeofExpr(expr)] *)
Definition typeofExpr (expr : Expression) : Expression := TypeofExpr expr.

(** [o.expressionType(expr)] *)
Definition expressionType (expr : Expression) : Type_ := ExpressionType expr.

(** [o.NONE_TYPE], the type standing for "no references". *)
Definition NONE_TYPE : Type_ := BuiltinType BuiltinNone.

(** [expr.callFn(params, sourceSpan, pure)] *)
Definition callFn (fn : Expression) (params : list Expression) (pure : bool)
  : Expression :=
  InvokeFunctionExpr fn params pure.

(** [expr.toStmt()] *)
Definition toStmt (expr : Expression) : Statement := ExpressionStatement expr.

End o.

(** ** References and the helpers of [render3/util] *)

Module R3Reference.
Record t : Set := mk { value : o.Expression; type : o.Expression }.
End R3Reference.

(** Modelled from the spec: [refsToArray] lives in [render3/util], which is
    not among the sources.  Section 4.2: an array literal of the references'
    value-expressions in input order, wrapped in a zero-argument closure that
    returns the array when forward declarations are present. *)
Definition refsToArray (refs : list R3Reference.t) (shouldForwardDeclare : bool)
  : o.Expression :=
  let values := o.literalArr (map R3Reference.value refs) in
  if shouldForwardDeclare
  then o.FunctionExpr [] [o.ReturnStatement values]
  else values.

(** Modelled from the spec: the development-mode flag read by the guard
    (the source's comments call it the [ngJitMode] guard). *)
Definition ngJitModeGuard : o.Expression := o.ReadVarExpr "ngJitMode".

(** Modelled from the spec: [jitOnlyGuardedExpression] lives in [render3/util].
    Section 4.4 and 6: a boolean short-circuit guard,
    [(devModeFlag) && expr]. *)
Definition jitOnlyGuardedExpression (expr : o.Expression) : o.Expression :=
  o.BinaryOperatorExpr o.And ngJitModeGuard expr.

(** Modelled from the spec: [DefinitionMap] lives in [render3/view/util].
    Section 4.1: an insertion-ordered accumulator of key/value pairs; [set]
    records the pair after the ones already there, [toLiteralMap] gives a
    literal map of exactly the recorded pairs in that order. *)
Module DefinitionMap.
Record t : Set := mk { values : list (string * o.Expression) }.

Definition new : t := mk [].

Definition set (key : string) (value : o.Expression) (m : t) : t :=
  mk (values m ++ [(key, value)]).

Definition toLiteralMap (m : t) : o.Expression := o.literalMap (values m).
End DefinitionMap.

(** ** Metadata *)

Inductive R3SelectorScopeMode : Set := Inline | SideEffect | Omit.

Module R3NgModuleMetadata.
Record t : Set := mk {
  type : R3Reference.t;
  internalType : o.Expression;
  adjacentType : o.Expression;
  bootstrap : list R3Reference.t;
  declarations : list R3Reference.t;
  imports : list R3Reference.t;
  exports : list R3Reference.t;
  selectorScopeMode : R3SelectorScopeMode;
  containsForwardDecls : bool;
  schemas : option (list R3Reference.t);
  id : option o.Expression
}.
End R3NgModuleMetadata.

(** The fields of [R3DeclareNgModuleFacade] the declaration path reads; an
    optional field that is [undefined] is [None]. *)
Module R3DeclareNgModuleFacade.
Record t : Set := mk {
  type : o.OpaqueValue;
  bootstrap : option o.OpaqueValue;
  declarations : option o.OpaqueValue;
  imports : option o.OpaqueValue;
  exports : option o.OpaqueValue;
  schemas : option o.OpaqueValue;
  id : option o.OpaqueValue
}.
End R3DeclareNgModuleFacade.

Module R3CompiledExpression.
Record t : Set := mk {
  expression : o.Expression;
  type : o.Type_;
  statements : list o.Statement
}.
End R3CompiledExpression.

(** ** Calls of the reference lowering

    The properties of the call sites of [refsToArray] need to see the calls,
    so the compiler functions run in a writer monad whose log has one entry
    per call, in call order. *)

Module RefsCall.
Record t : Set := mk { refs : list R3Reference.t; shouldForwardDeclare : bool }.
End RefsCall.

Definition Traced (A : Type) : Type := (A * list RefsCall.t)%type.

Definition ret {A : Type} (a : A) : Traced A := (a, []).

Definition bind {A B : Type} (m : Traced A) (k : A -> Traced B) : Traced B :=
  let (a, l1) := m in
  let (b, l2) := k a in
  (b, l1 ++ l2).

Declare Scope traced_scope.
Delimit Scope traced_scope with traced.
Notation "x <- m ;; k" := (bind m (fun x => k))
  (at level 61, m at next level, right associativity) : traced_scope.
Notation "' p <- m ;; k" := (bind m (fun x => let p := x in k))
  (at level 61, p pattern, m at next level, right associativity)
  : traced_scope.

(** A call [refsToArray(refs, shouldForwardDeclare)] made by the compiler. *)
Definition call_refsToArray (refs : list R3Reference.t)
  (shouldForwardDeclare : bool) : Traced o.Expression :=
  (refsToArray refs shouldForwardDeclare,
   [RefsCall.mk refs shouldForwardDeclare]).

(** ** The module compiler *)

Local Open Scope traced_scope.

Definition tupleTypeOf (exp : list R3Reference.t) : o.Type_ :=
  let types := map (fun ref => o.typeofExpr (R3Reference.type ref)) exp in
  if 0 <? length exp
  then o.expressionType (o.literalArr types)
  else o.NONE_TYPE.

Definition createNgModuleType (meta : R3NgModuleMetadata.t) : o.Type_ :=
  let moduleType := R3NgModuleMetadata.type meta in
  let declarations := R3NgModuleMetadata.declarations meta in
  let imports := R3NgModuleMetadata.imports meta in
  let exports := R3NgModuleMetadata.exports meta in
  o.ExpressionType (o.importExpr R3.NgModuleDeclaration (Some [
    o.ExpressionType (R3Reference.type moduleType); tupleTypeOf declarations;
    tupleTypeOf imports; tupleTypeOf exports
  ])).

Definition generateSetNgModuleScopeCall_traced (meta : R3NgModuleMetadata.t)
  : Traced (option o.Statement) :=
  let moduleType := R3NgModuleMetadata.adjacentType meta in
  let declarations := R3NgModuleMetadata.declarations meta in
  let imports := R3NgModuleMetadata.imports meta in
  let exports := R3NgModuleMetadata.exports meta in
  let containsForwardDecls := R3NgModuleMetadata.containsForwardDecls meta in
  let scopeMap := DefinitionMap.new in
  scopeMap <-
    (if 0 <? length declarations
     then e <- call_refsToArray declarations containsForwardDecls ;;
          ret (DefinitionMap.set "declarations" e scopeMap)
     else ret scopeMap) ;;
  scopeMap <-
    (if 0 <? length imports
     then e <- call_refsToArray imports containsForwardDecls ;;
          ret (DefinitionMap.set "imports" e scopeMap)
     else ret scopeMap) ;;
  scopeMap <-
    (if 0 <? length exports
     then e <- call_refsToArray exports containsForwardDecls ;;
          ret (DefinitionMap.set "exports" e scopeMap)
     else ret scopeMap) ;;
  if length (DefinitionMap.values scopeMap) =? 0
  then ret None
  else
    let fnCall :=
      o.InvokeFunctionExpr (o.importExpr R3.setNgModuleScope None)
        [moduleType; DefinitionMap.toLiteralMap scopeMap] false in
    let guardedCall := jitOnlyGuardedExpression fnCall in
    let iife := o.FunctionExpr [] [o.toStmt guardedCall] in
    let iifeCall := o.InvokeFunctionExpr iife [] false in
    ret (Some (o.toStmt iifeCall)).

Definition compileNgModule_traced (meta : R3NgModuleMetadata.t)
  : Traced R3CompiledExpression.t :=
  let adjacentType := R3NgModuleMetadata.adjacentType meta in
  let internalType := R3NgModuleMetadata.internalType meta in
  let bootstrap := R3NgModuleMetadata.bootstrap meta in
  let declarations := R3NgModuleMetadata.declarations meta in
  let imports := R3NgModuleMetadata.imports meta in
  let exports := R3NgModuleMetadata.exports meta in
  let schemas := R3NgModuleMetadata.schemas meta in
  let containsForwardDecls := R3NgModuleMetadata.containsForwardDecls meta in
  let selectorScopeMode := R3NgModuleMetadata.selectorScopeMode meta in
  let id := R3NgModuleMetadata.id meta in
  let statements : list o.Statement := [] in
  let definitionMap := DefinitionMap.new in
  let definitionMap := DefinitionMap.set "type" internalType definitionMap in
  definitionMap <-
    (if 0 <? length bootstrap
     then e <- call_refsToArray bootstrap containsForwardDecls ;;
          ret (DefinitionMap.set "bootstrap" e definitionMap)
     else ret definitionMap) ;;
  '(definitionMap, statements) <-
    match selectorScopeMode with
    | Inline =>
        definitionMap <-
          (if 0 <? length declarations
           then e <- call_refsToArray declarations containsForwardDecls ;;
                ret (DefinitionMap.set "declarations" e definitionMap)
           else ret definitionMap) ;;
        definitionMap <-
          (if 0 <? length imports
           then e <- call_refsToArray imports containsForwardDecls ;;
                ret (DefinitionMap.set "imports" e definitionMap)
           else ret definitionMap) ;;
        definitionMap <-
          (if 0 <? length exports
           then e <- call_refsToArray exports containsForwardDecls ;;
                ret (DefinitionMap.set "exports" e definitionMap)
           else ret definitionMap) ;;
        ret (definitionMap, statements)
    | SideEffect =>
        setNgModuleScopeCall <- generateSetNgModuleScopeCall_traced meta ;;
        match setNgModuleScopeCall with
        | Some stmt => ret (definitionMap, statements ++ [stmt])
        | None => ret (definitionMap, statements)
        end
    | Omit => ret (definitionMap, statements)
    end ;;
  let definitionMap :=
    match schemas with
    | Some schemas =>
        if 0 <? length schemas
        then DefinitionMap.set "schemas"
               (o.literalArr (map R3Reference.value schemas)) definitionMap
        else definitionMap
    | None => definitionMap
    end in
  let '(definitionMap, statements) :=
    match id with
    | Some id =>
        (DefinitionMap.set "id" id definitionMap,
         statements ++
         [o.toStmt (o.callFn (o.importExpr R3.registerNgModuleType None)
                      [adjacentType; id] false)])
    | None => (definitionMap, statements)
    end in
  let expression :=
    o.callFn (o.importExpr R3.defineNgModule None)
      [DefinitionMap.toLiteralMap definitionMap] true in
  let type := createNgModuleType meta in
  ret (R3CompiledExpression.mk expression type statements).

(** The values the two functions return. *)
Definition generateSetNgModuleScopeCall (meta : R3NgModuleMetadata.t)
  : option o.Statement :=
  fst (generateSetNgModuleScopeCall_traced meta).

Definition compileNgModule (meta : R3NgModuleMetadata.t)
  : R3CompiledExpression.t :=
  fst (compileNgModule_traced meta).

(** The calls of [refsToArray] a run of [compileNgModule] makes (those of
    [generateSetNgModuleScopeCall] included), in call order. *)
Definition refsToArray_calls (meta : R3NgModuleMetadata.t)
  : list RefsCall.t :=
  snd (compileNgModule_traced meta).

Local Close Scope traced_scope.

Definition compileNgModuleDeclarationExpression
  (meta : R3DeclareNgModuleFacade.t) : o.Expression :=
  let definitionMap := DefinitionMap.new in
  let definitionMap :=
    DefinitionMap.set "type"
      (o.WrappedNodeExpr (R3DeclareNgModuleFacade.type meta)) definitionMap in
  let definitionMap :=
    match R3DeclareNgModuleFacade.bootstrap meta with
    | Some v => DefinitionMap.set "bootstrap" (o.WrappedNodeExpr v) definitionMap
    | None => definitionMap
    end in
  let definitionMap :=
    match R3DeclareNgModuleFacade.declarations meta with
    | Some v =>
        DefinitionMap.set "declarations" (o.WrappedNodeExpr v) definitionMap
    | None => definitionMap
    end in
  let definitionMap :=
    match R3DeclareNgModuleFacade.imports meta with
    | Some v => DefinitionMap.set "imports" (o.WrappedNodeExpr v) definitionMap
    | None => definitionMap
    end in
  let definitionMap :=
    match R3DeclareNgModuleFacade.exports meta with
    | Some v => DefinitionMap.set "exports" (o.WrappedNodeExpr v) definitionMap
    | None => definitionMap
    end in
  let definitionMap :=
    match R3DeclareNgModuleFacade.schemas meta with
    | Some v => DefinitionMap.set "schemas" (o.WrappedNodeExpr v) definitionMap
    | None => definitionMap
    end in
  let definitionMap :=
    match R3DeclareNgModuleFacade.id meta with
    | Some v => DefinitionMap.set "id" (o.WrappedNodeExpr v) definitionMap
    | None => definitionMap
    end in
  o.callFn (o.importExpr R3.defineNgModule None)
    [DefinitionMap.toLiteralMap definitionMap] false.

(** ** Observations on the output *)

(** The entries of the literal map handed to [defineNgModule]. *)
Definition definitionMapOf (e : o.Expression) : list (string * o.Expression) :=
  match e with
  | o.InvokeFunctionExpr (o.ExternalExpr R3.defineNgModule _)
      [o.LiteralMapExpr entries] _ => entries
  | _ => []
  end.

Definition keys (entries : list (string * o.Expression)) : list string :=
  map fst entries.

(** The value a literal map gives for a key (the first entry of that key). *)
Fixpoint lookup (key : string) (entries : list (string * o.Expression))
  : option o.Expression :=
  match entries with
  | [] => None
  | (k, v) :: rest => if String.eqb key k then Some v else lookup key rest
  end.

(** The statement [(function() { guard && setNgModuleScope(t, {..}); })()]:
    the module type and the scope map of a scope registration. *)
Definition scopeRegistrationOf (s : o.Statement)
  : option (o.Expression * list (string * o.Expression)) :=
  match s with
  | o.ExpressionStatement
      (o.InvokeFunctionExpr
         (o.FunctionExpr []
            [o.ExpressionStatement
               (o.BinaryOperatorExpr o.And _
                  (o.InvokeFunctionExpr (o.ExternalExpr R3.setNgModuleScope _)
                     [t; o.LiteralMapExpr entries] _))])
         [] _) => Some (t, entries)
  | _ => None
  end.

Definition isScopeRegistration (s : o.Statement) : bool :=
  match scopeRegistrationOf s with Some _ => true | None => false end.

(** The statement [registerNgModuleType(..)], a bare call. *)
Definition isIdRegistration (s : o.Statement) : bool :=
  match s with
  | o.ExpressionStatement
      (o.InvokeFunctionExpr (o.ExternalExpr R3.registerNgModuleType _) _ _) =>
      true
  | _ => false
  end.

(** The scope registration written out:
    [(function() { ngJitMode && setNgModuleScope(moduleType, {entries}); })()]. *)
Definition scopeRegistration (moduleType : o.Expression)
  (entries : list (string * o.Expression)) : o.Statement :=
  o.ExpressionStatement
    (o.InvokeFunctionExpr
       (o.FunctionExpr []
          [o.ExpressionStatement
             (o.BinaryOperatorExpr o.And ngJitModeGuard
                (o.InvokeFunctionExpr (o.ExternalExpr R3.setNgModuleScope None)
                   [moduleType; o.LiteralMapExpr entries] false))])
       [] false).

(** The id registration written out: [registerNgModuleType(moduleType, id)]. *)
Definition idRegistration (moduleType id : o.Expression) : o.Statement :=
  o.ExpressionStatement
    (o.InvokeFunctionExpr (o.ExternalExpr R3.registerNgModuleType None)
       [moduleType; id] false).

(** The array of the references' value-expressions, as a literal and as a
    zero-argument closure returning that literal. *)
Definition directArray (refs : list R3Reference.t) : o.Expression :=
  o.LiteralArrayExpr (map R3Reference.value refs).

Definition deferredArray (refs : list R3Reference.t) : o.Expression :=
  o.FunctionExpr [] [o.ReturnStatement (directArray refs)].

(** Of a list of named reference sequences, the non-empty ones, lowered, in
    the order given. *)
Fixpoint loweredNonEmpty (fields : list (string * list R3Reference.t))
  (containsForwardDecls : bool) : list (string * o.Expression) :=
  match fields with
  | [] => []
  | (key, refs) :: rest =>
      match refs with
      | [] => loweredNonEmpty rest containsForwardDecls
      | _ :: _ =>
          (key, refsToArray refs containsForwardDecls)
          :: loweredNonEmpty rest containsForwardDecls
      end
  end.

(** Of a list of reference sequences, the calls lowering the non-empty ones. *)
Definition callsNonEmpty (seqs : list (list R3Reference.t))
  (containsForwardDecls : bool) : list RefsCall.t :=
  map (fun refs => RefsCall.mk refs containsForwardDecls)
    (filter (fun refs => 0 <? length refs) seqs).

Definition scopeFields (meta : R3NgModuleMetadata.t)
  : list (string * list R3Reference.t) :=
  [("declarations", R3NgModuleMetadata.declarations meta);
   ("imports", R3NgModuleMetadata.imports meta);
   ("exports", R3NgModuleMetadata.exports meta)].

(** The scope map of a module: its non-empty declarations, imports and
    exports, lowered. *)
Definition scopeEntries (meta : R3NgModuleMetadata.t)
  : list (string * o.Expression) :=
  loweredNonEmpty (scopeFields meta)
    (R3NgModuleMetadata.containsForwardDecls meta).

Definition schemasEntries (meta : R3NgModuleMetadata.t)
  : list (string * o.Expression) :=
  match R3NgModuleMetadata.schemas meta with
  | Some (r :: rs) => [("schemas", directArray (r :: rs))]
  | _ => []
  end.

Definition idEntries (meta : R3NgModuleMetadata.t)
  : list (string * o.Expression) :=
  match R3NgModuleMetadata.id meta with
  | Some i => [("id", i)]
  | None => []
  end.

Definition mainEntries (meta : R3NgModuleMetadata.t)
  : list (string * o.Expression) :=
  ("type", R3NgModuleMetadata.internalType meta)
  :: loweredNonEmpty [("bootstrap", R3NgModuleMetadata.bootstrap meta)]
       (R3NgModuleMetadata.containsForwardDecls meta)
  ++ match R3NgModuleMetadata.selectorScopeMode meta with
     | Inline => scopeEntries meta
     | _ => []
     end
  ++ schemasEntries meta
  ++ idEntries meta.

Definition scopeStatements (meta : R3NgModuleMetadata.t) : list o.Statement :=
  match R3NgModuleMetadata.selectorScopeMode meta, scopeEntries meta with
  | SideEffect, e :: es =>
      [scopeRegistration (R3NgModuleMetadata.adjacentType meta) (e :: es)]
  | _, _ => []
  end.

Definition idStatements (meta : R3NgModuleMetadata.t) : list o.Statement :=
  match R3NgModuleMetadata.id meta with
  | Some i => [idRegistration (R3NgModuleMetadata.adjacentType meta) i]
  | None => []
  end.

(** The entry the declaration path records for an optional field. *)
Definition present (key : string) (field : option o.OpaqueValue)
  : list (string * o.Expression) :=
  match field with
  | Some v => [(key, o.WrappedNodeExpr v)]
  | None => []
  end.

(** Metadata that differs in [bootstrap] and [schemas] only. *)
Definition withBootstrapAndSchemas (meta : R3NgModuleMetadata.t)
  (bootstrap : list R3Reference.t) (schemas : option (list R3Reference.t))
  : R3NgModuleMetadata.t :=
  R3NgModuleMetadata.mk
    (R3NgModuleMetadata.type meta)
    (R3NgModuleMetadata.internalType meta)
    (R3NgModuleMetadata.adjacentType meta)
    bootstrap
    (R3NgModuleMetadata.declarations meta)
    (R3NgModuleMetadata.imports meta)
    (R3NgModuleMetadata.exports meta)
    (R3NgModuleMetadata.selectorScopeMode meta)
    (R3NgModuleMetadata.containsForwardDecls meta)
    schemas
    (R3NgModuleMetadata.id meta).

(** The main definition map and the statements of a compilation. *)
Definition mainMap (meta : R3NgModuleMetadata.t)
  : list (string * o.Expression) :=
  definitionMapOf (R3CompiledExpression.expression (compileNgModule meta)).

Definition emittedStatements (meta : R3NgModuleMetadata.t)
  : list o.Statement :=
  R3CompiledExpression.statements (compileNgModule meta).

(** ** Sample inputs *)

Module Sample.
Definition ref (name : string) : R3Reference.t :=
  R3Reference.mk (o.ReadVarExpr name) (o.ReadVarExpr (name ++ "_t")).

Definition A := ref "A".
Definition B := ref "B".
Definition C := ref "C".

Definition meta (bootstrap declarations imports exports : list R3Reference.t)
  (mode : R3SelectorScopeMode) (fwd : bool)
  (schemas : option (list R3Reference.t)) (id : option o.Expression)
  : R3NgModuleMetadata.t :=
  R3NgModuleMetadata.mk (ref "M") (o.ReadVarExpr "M_internal")
    (o.ReadVarExpr "M_adjacent") bootstrap declarations imports exports
    mode fwd schemas id.
End Sample.

(** ** Variations of the metadata *)

(** Metadata that differs in [selectorScopeMode] only. *)
Definition withSelectorScopeMode (meta : R3NgModuleMetadata.t)
  (mode : R3SelectorScopeMode) : R3NgModuleMetadata.t :=
  R3NgModuleMetadata.mk
    (R3NgModuleMetadata.type meta)
    (R3NgModuleMetadata.internalType meta)
    (R3NgModuleMetadata.adjacentType meta)
    (R3NgModuleMetadata.bootstrap meta)
    (R3NgModuleMetadata.declarations meta)
    (R3NgModuleMetadata.imports meta)
    (R3NgModuleMetadata.exports meta)
    mode
    (R3NgModuleMetadata.containsForwardDecls meta)
    (R3NgModuleMetadata.schemas meta)
    (R3NgModuleMetadata.id meta).

(** Metadata that differs in [declarations], [imports], [exports] only. *)
Definition withScope (meta : R3NgModuleMetadata.t)
  (declarations imports exports : list R3Reference.t)
  : R3NgModuleMetadata.t :=
  R3NgModuleMetadata.mk
    (R3NgModuleMetadata.type meta)
    (R3NgModuleMetadata.internalType meta)
    (R3NgModuleMetadata.adjacentType meta)
    (R3NgModuleMetadata.bootstrap meta)
    declarations imports exports
    (R3NgModuleMetadata.selectorScopeMode meta)
    (R3NgModuleMetadata.containsForwardDecls meta)
    (R3NgModuleMetadata.schemas meta)
    (R3NgModuleMetadata.id meta).

(** Metadata that differs in the three spellings of the module type only. *)
Definition withTypes (meta : R3NgModuleMetadata.t) (type : R3Reference.t)
  (internalType adjacentType : o.Expression) : R3NgModuleMetadata.t :=
  R3NgModuleMetadata.mk type internalType adjacentType
    (R3NgModuleMetadata.bootstrap meta)
    (R3NgModuleMetadata.declarations meta)
    (R3NgModuleMetadata.imports meta)
    (R3NgModuleMetadata.exports meta)
    (R3NgModuleMetadata.selectorScopeMode meta)
    (R3NgModuleMetadata.containsForwardDecls meta)
    (R3NgModuleMetadata.schemas meta)
    (R3NgModuleMetadata.id meta).

(** Metadata that differs in [containsForwardDecls] only. *)
Definition withContainsForwardDecls (meta : R3NgModuleMetadata.t)
  (containsForwardDecls : bool) : R3NgModuleMetadata.t :=
  R3NgModuleMetadata.mk
    (R3NgModuleMetadata.type meta)
    (R3NgModuleMetadata.internalType meta)
    (R3NgModuleMetadata.adjacentType meta)
    (R3NgModuleMetadata.bootstrap meta)
    (R3NgModuleMetadata.declarations meta)
    (R3NgModuleMetadata.imports meta)
    (R3NgModuleMetadata.exports meta)
    (R3NgModuleMetadata.selectorScopeMode meta)
    containsForwardDecls
    (R3NgModuleMetadata.schemas meta)
    (R3NgModuleMetadata.id meta).

(** The keys of the definition object, in the order both emitters set them. *)
Definition defKeyOrder : list string :=
  ["type"; "bootstrap"; "declarations"; "imports"; "exports"; "schemas"; "id"].

(** [isSubsequence l1 l2]: [l1] is [l2] with some elements left out. *)
Fixpoint isSubsequence (l1 l2 : list string) {struct l2} : bool :=
  match l1, l2 with
  | [], _ => true
  | _ :: _, [] => false
  | x :: xs, y :: ys =>
      if String.eqb x y then isSubsequence xs ys else isSubsequence l1 ys
  end.

(** The scope map of the statement [generateSetNgModuleScopeCall] returns;
    no entries when it returns no statement. *)
Definition scopeMapOf (call : option o.Statement)
  : list (string * o.Expression) :=
  match call with
  | Some s =>
      match scopeRegistrationOf s with
      | Some (_, entries) => entries
      | None => []
      end
  | None => []
  end.

(** The optional fields of the declaration facade that are defined. *)
Definition definedFields (meta : R3DeclareNgModuleFacade.t)
  : list (option o.OpaqueValue) :=
  filter (fun f => match f with Some _ => true | None => false end)
    [R3DeclareNgModuleFacade.bootstrap meta;
     R3DeclareNgModuleFacade.declarations meta;
     R3DeclareNgModuleFacade.imports meta;
     R3DeclareNgModuleFacade.exports meta;
     R3DeclareNgModuleFacade.schemas meta;
     R3DeclareNgModuleFacade.id meta].

(** ** The shape of the output *)

Ltac split_meta meta :=
  destruct meta as [ty ity aty bs ds ims exs mode fwd sch i]; cbn in *.

Ltac split_seqs bs ds ims exs mode sch i :=
  destruct bs, ds, ims, exs, mode, sch as [[|]|], i.

Lemma compileNgModule_traced_shape (meta : R3NgModuleMetadata.t) :
  compileNgModule_traced meta =
  (R3CompiledExpression.mk
     (o.InvokeFunctionExpr (o.ExternalExpr R3.defineNgModule None)
        [o.LiteralMapExpr (mainEntries meta)] true)
     (createNgModuleType meta)
     (scopeStatements meta ++ idStatements meta),
   callsNonEmpty
     (R3NgModuleMetadata.bootstrap meta
      :: match R3NgModuleMetadata.selectorScopeMode meta with
         | Omit => []
         | _ => map snd (scopeFields meta)
         end)
     (R3NgModuleMetadata.containsForwardDecls meta)).
Proof.
  split_meta meta. split_seqs bs ds ims exs mode sch i; reflexivity.
Qed.

Lemma compileNgModule_expression (meta : R3NgModuleMetadata.t) :
  R3CompiledExpression.expression (compileNgModule meta) =
  o.InvokeFunctionExpr (o.ExternalExpr R3.defineNgModule None)
    [o.LiteralMapExpr (mainEntries meta)] true.
Proof.
  unfold compileNgModule. now rewrite compileNgModule_traced_shape.
Qed.

Lemma mainMap_entries (meta : R3NgModuleMetadata.t) :
  mainMap meta = mainEntries meta.
Proof.
  unfold mainMap. now rewrite compileNgModule_expression.
Qed.

Lemma emittedStatements_shape (meta : R3NgModuleMetadata.t) :
  emittedStatements meta = scopeStatements meta ++ idStatements meta.
Proof.
  unfold emittedStatements, compileNgModule.
  now rewrite compileNgModule_traced_shape.
Qed.

Lemma refsToArray_calls_shape (meta : R3NgModuleMetadata.t) :
  refsToArray_calls meta =
  callsNonEmpty
    (R3NgModuleMetadata.bootstrap meta
     :: match R3NgModuleMetadata.selectorScopeMode meta with
        | Omit => []
        | _ => map snd (scopeFields meta)
        end)
    (R3NgModuleMetadata.containsForwardDecls meta).
Proof.
  unfold refsToArray_calls. now rewrite compileNgModule_traced_shape.
Qed.

Lemma generateSetNgModuleScopeCall_traced_shape (meta : R3NgModuleMetadata.t) :
  generateSetNgModuleScopeCall_traced meta =
  (match scopeEntries meta with
   | [] => None
   | e :: es =>
       Some (scopeRegistration (R3NgModuleMetadata.adjacentType meta) (e :: es))
   end,
   callsNonEmpty (map snd (scopeFields meta))
     (R3NgModuleMetadata.containsForwardDecls meta)).
Proof.
  split_meta meta. destruct ds, ims, exs; reflexivity.
Qed.

(** *** Literal maps *)

Lemma lookup_app (key : string) (l1 l2 : list (string * o.Expression)) :
  lookup key (l1 ++ l2) =
  match lookup key l1 with
  | Some v => Some v
  | None => lookup key l2
  end.
Proof.
  induction l1 as [|[k v] l1 IH]; cbn; [reflexivity|].
  destruct (String.eqb key k); [reflexivity | exact IH].
Qed.

Lemma lookup_None_iff (key : string) (l : list (string * o.Expression)) :
  lookup key l = None <-> ~ In key (keys l).
Proof.
  induction l as [|[k v] l IH]; cbn.
  - tauto.
  - destruct (String.eqb_spec key k) as [->|Hne].
    + split; [discriminate | intros H; exfalso; apply H; now left].
    + rewrite IH. split.
      * intros H [Hk|Hk]; [now apply Hne | now apply H].
      * intros H Hk. apply H. now right.
Qed.

(** The keys of lowered fields are among the fields' names, in their order. *)
Lemma keys_loweredNonEmpty (fields : list (string * list R3Reference.t))
  (fwd : bool) :
  keys (loweredNonEmpty fields fwd) =
  map fst (filter (fun f => 0 <? length (snd f)) fields).
Proof.
  induction fields as [|[k [|r rs]] fields IH]; cbn; [reflexivity | exact IH |].
  f_equal. exact IH.
Qed.

Lemma isScopeRegistration_scopeRegistration (t : o.Expression)
  (entries : list (string * o.Expression)) :
  isScopeRegistration (scopeRegistration t entries) = true.
Proof. reflexivity. Qed.

Lemma isScopeRegistration_idRegistration (t i : o.Expression) :
  isScopeRegistration (idRegistration t i) = false.
Proof. reflexivity. Qed.

Lemma isIdRegistration_idRegistration (t i : o.Expression) :
  isIdRegistration (idRegistration t i) = true.
Proof. reflexivity. Qed.

Lemma isIdRegistration_scopeRegistration (t : o.Expression)
  (entries : list (string * o.Expression)) :
  isIdRegistration (scopeRegistration t entries) = false.
Proof. reflexivity. Qed.

Lemma filter_scope_idStatements (meta : R3NgModuleMetadata.t) :
  filter isScopeRegistration (idStatements meta) = [].
Proof. unfold idStatements. now destruct (R3NgModuleMetadata.id meta). Qed.

Lemma filter_id_scopeStatements (meta : R3NgModuleMetadata.t) :
  filter isIdRegistration (scopeStatements meta) = [].
Proof.
  unfold scopeStatements.
  now destruct (R3NgModuleMetadata.selectorScopeMode meta), (scopeEntries meta).
Qed.

Lemma filter_scope_scopeStatements (meta : R3NgModuleMetadata.t) :
  filter isScopeRegistration (scopeStatements meta) = scopeStatements meta.
Proof.
  unfold scopeStatements.
  now destruct (R3NgModuleMetadata.selectorScopeMode meta), (scopeEntries meta).
Qed.

Lemma filter_id_idStatements (meta : R3NgModuleMetadata.t) :
  filter isIdRegistration (idStatements meta) = idStatements meta.
Proof. unfold idStatements. now destruct (R3NgModuleMetadata.id meta). Qed.

Lemma scopeEntries_nil_iff (meta : R3NgModuleMetadata.t) :
  scopeEntries meta = [] <->
  R3NgModuleMetadata.declarations meta = [] /\
  R3NgModuleMetadata.imports meta = [] /\
  R3NgModuleMetadata.exports meta = [].
Proof.
  unfold scopeEntries, scopeFields.
  destruct (R3NgModuleMetadata.declarations meta),
    (R3NgModuleMetadata.imports meta), (R3NgModuleMetadata.exports meta);
    cbn; intuition congruence.
Qed.

Ltac absent_key :=
  apply lookup_None_iff; cbn;
  repeat match goal with
  | |- context [match ?l with [] => _ | _ :: _ => _ end] => destruct l; cbn
  | |- context [match ?x with Some _ => _ | None => _ end] => destruct x; cbn
  end; reflexivity.

(** ** Selector scope: the side-effect mode *)

(** C1.  In [SideEffect] mode the main definition map (the literal map of the
    [defineNgModule] call) has none of the keys [declarations], [imports],
    [exports].  When one of the three sequences is non-empty, exactly one of
    the emitted statements is a scope registration, and it is the immediately
    invoked zero-argument function whose body is the guarded call
    [setNgModuleScope(adjacentType, scopeMap)], the scope map holding the
    non-empty ones of declarations, imports, exports, lowered, in that order.
    When all three are empty no scope registration is emitted. *)
Theorem compileNgModule_SideEffect_scope (meta : R3NgModuleMetadata.t) :
  R3NgModuleMetadata.selectorScopeMode meta = SideEffect ->
  R3CompiledExpression.expression (compileNgModule meta) =
    o.InvokeFunctionExpr (o.ExternalExpr R3.defineNgModule None)
      [o.LiteralMapExpr (mainMap meta)] true /\
  (~ In "declarations" (keys (mainMap meta)) /\
   ~ In "imports" (keys (mainMap meta)) /\
   ~ In "exports" (keys (mainMap meta))) /\
  (R3NgModuleMetadata.declarations meta <> [] \/
   R3NgModuleMetadata.imports meta <> [] \/
   R3NgModuleMetadata.exports meta <> [] ->
   filter isScopeRegistration (emittedStatements meta) =
   [scopeRegistration (R3NgModuleMetadata.adjacentType meta)
      (loweredNonEmpty
         [("declarations", R3NgModuleMetadata.declarations meta);
          ("imports", R3NgModuleMetadata.imports meta);
          ("exports", R3NgModuleMetadata.exports meta)]
         (R3NgModuleMetadata.containsForwardDecls meta))]) /\
  (R3NgModuleMetadata.declarations meta = [] ->
   R3NgModuleMetadata.imports meta = [] ->
   R3NgModuleMetadata.exports meta = [] ->
   filter isScopeRegistration (emittedStatements meta) = []).
Proof.
  intros Hmode.
  rewrite compileNgModule_expression, mainMap_entries, emittedStatements_shape.
  rewrite filter_app, filter_scope_idStatements, app_nil_r.
  rewrite filter_scope_scopeStatements.
  unfold mainEntries, scopeStatements. rewrite Hmode.
  split; [reflexivity|]. split; [|split].
  - unfold schemasEntries, idEntries. repeat split; absent_key.
  - intros Hne. fold (scopeFields meta). fold (scopeEntries meta).
    destruct (scopeEntries meta) eqn:E; [|reflexivity].
    apply scopeEntries_nil_iff in E. destruct E as (Hd & Hi & He).
    destruct Hne as [H|[H|H]]; contradiction.
  - intros Hd Hi He.
    assert (E : scopeEntries meta = []) by now apply scopeEntries_nil_iff.
    now rewrite E.
Qed.

Lemma compileNgModule_SideEffect_scope_witness :
  R3NgModuleMetadata.selectorScopeMode
    (Sample.meta [] [Sample.A] [] [] SideEffect false None None) = SideEffect /\
  emittedStatements
    (Sample.meta [] [Sample.A] [] [] SideEffect false None None) =
  [scopeRegistration (o.ReadVarExpr "M_adjacent")
     [("declarations", o.LiteralArrayExpr [o.ReadVarExpr "A"])]] /\
  filter isScopeRegistration
    (emittedStatements
       (Sample.meta [] [Sample.A] [] [] SideEffect false None None)) =
  [scopeRegistration (o.ReadVarExpr "M_adjacent")
     [("declarations", o.LiteralArrayExpr [o.ReadVarExpr "A"])]].
Proof.
  split; [reflexivity|]. split; [reflexivity|].
  apply (compileNgModule_SideEffect_scope
           (Sample.meta [] [Sample.A] [] [] SideEffect false None None)
           eq_refl).
  left. discriminate.
Defined.

(** ** Selector scope: the inline mode *)

(** C2.  In [Inline] mode each of the keys [declarations], [imports],
    [exports] is on the main definition map exactly when its sequence is
    non-empty, its value being the sequence lowered by [refsToArray] with
    [containsForwardDecls]; no emitted statement is a scope registration. *)
Theorem compileNgModule_Inline_scope (meta : R3NgModuleMetadata.t)
  (key : string) (refs : list R3Reference.t) :
  R3NgModuleMetadata.selectorScopeMode meta = Inline ->
  In (key, refs)
    [("declarations", R3NgModuleMetadata.declarations meta);
     ("imports", R3NgModuleMetadata.imports meta);
     ("exports", R3NgModuleMetadata.exports meta)] ->
  (In key (keys (mainMap meta)) <-> refs <> []) /\
  (refs <> [] ->
   lookup key (mainMap meta) =
   Some (refsToArray refs (R3NgModuleMetadata.containsForwardDecls meta))) /\
  filter isScopeRegistration (emittedStatements meta) = [].
Proof.
  intros Hmode Hin.
  rewrite mainMap_entries, emittedStatements_shape.
  unfold mainEntries, scopeStatements, idStatements, schemasEntries, idEntries,
    scopeEntries, scopeFields.
  rewrite Hmode. clear Hmode.
  split_meta meta.
  destruct Hin as [[= <- <-]|[[= <- <-]|[[= <- <-]|[]]]];
    destruct bs, ds, ims, exs, sch as [[|]|], i; cbn;
    (split; [|split]); try reflexivity;
    try (intros H; now elim H);
    (split; [intros H; try discriminate;
             repeat (destruct H as [H|H]; try discriminate); try contradiction
            | intros H; try (now elim H); tauto]).
Qed.

Lemma compileNgModule_Inline_scope_witness :
  R3NgModuleMetadata.selectorScopeMode
    (Sample.meta [] [Sample.A; Sample.B] [] [Sample.C] Inline true None None)
    = Inline /\
  lookup "declarations"
    (mainMap
       (Sample.meta [] [Sample.A; Sample.B] [] [Sample.C] Inline true None None))
  = Some (o.FunctionExpr []
            [o.ReturnStatement
               (o.LiteralArrayExpr [o.ReadVarExpr "A"; o.ReadVarExpr "B"])]).
Proof.
  split; [reflexivity|].
  apply (compileNgModule_Inline_scope
           (Sample.meta [] [Sample.A; Sample.B] [] [Sample.C] Inline true
              None None)
           "declarations" [Sample.A; Sample.B] eq_refl).
  - left. reflexivity.
  - discriminate.
Defined.

(** ** Reference lowering *)

Lemma refsToArray_deferred (refs : list R3Reference.t) :
  refsToArray refs true = deferredArray refs.
Proof. reflexivity. Qed.

Lemma refsToArray_direct (refs : list R3Reference.t) :
  refsToArray refs false = directArray refs.
Proof. reflexivity. Qed.

Lemma In_callsNonEmpty (seqs : list (list R3Reference.t)) (fwd : bool)
  (call : RefsCall.t) :
  In call (callsNonEmpty seqs fwd) <->
  In (RefsCall.refs call) seqs /\ RefsCall.refs call <> [] /\
  RefsCall.shouldForwardDeclare call = fwd.
Proof.
  unfold callsNonEmpty. rewrite in_map_iff. split.
  - intros (refs & <- & Hin). apply filter_In in Hin. destruct Hin as [Hin Hlen].
    cbn. repeat split; [exact Hin|]. intros ->. discriminate.
  - intros (Hin & Hne & Hfwd). exists (RefsCall.refs call). split.
    + destruct call; cbn in *. now subst.
    + apply filter_In. split; [exact Hin|].
      destruct (RefsCall.refs call); [contradiction | reflexivity].
Qed.

(** C3.  Take one of [bootstrap], [declarations], [imports], [exports] that
    is non-empty.  Lowered with [containsForwardDecls] set it is a
    zero-argument closure whose body returns the array literal; lowered with
    it unset it is the array literal itself; the array holds the references'
    value-expressions in input order.  That lowered expression is what
    [compileNgModule] puts on the main map (for [bootstrap], and in [Inline]
    mode for the other three) and what [generateSetNgModuleScopeCall] puts on
    the scope map. *)
Theorem refsToArray_lowered_shape (meta : R3NgModuleMetadata.t)
  (key : string) (refs : list R3Reference.t) :
  In (key, refs)
    [("bootstrap", R3NgModuleMetadata.bootstrap meta);
     ("declarations", R3NgModuleMetadata.declarations meta);
     ("imports", R3NgModuleMetadata.imports meta);
     ("exports", R3NgModuleMetadata.exports meta)] ->
  refs <> [] ->
  (R3NgModuleMetadata.containsForwardDecls meta = true ->
   refsToArray refs (R3NgModuleMetadata.containsForwardDecls meta) =
   o.FunctionExpr []
     [o.ReturnStatement (o.LiteralArrayExpr (map R3Reference.value refs))]) /\
  (R3NgModuleMetadata.containsForwardDecls meta = false ->
   refsToArray refs (R3NgModuleMetadata.containsForwardDecls meta) =
   o.LiteralArrayExpr (map R3Reference.value refs)) /\
  (key = "bootstrap" \/ R3NgModuleMetadata.selectorScopeMode meta = Inline ->
   lookup key (mainMap meta) =
   Some (refsToArray refs (R3NgModuleMetadata.containsForwardDecls meta))) /\
  (key <> "bootstrap" ->
   exists entries,
     generateSetNgModuleScopeCall meta =
     Some (scopeRegistration (R3NgModuleMetadata.adjacentType meta) entries) /\
     lookup key entries =
     Some (refsToArray refs (R3NgModuleMetadata.containsForwardDecls meta))).
Proof.
  intros Hin Hne. split; [|split; [|split]].
  - intros ->. apply refsToArray_deferred.
  - intros ->. apply refsToArray_direct.
  - intros Hmain. rewrite mainMap_entries. unfold mainEntries.
    cbn in Hin. destruct Hin as [[= <- <-]|Hin].
    + cbn. destruct (R3NgModuleMetadata.bootstrap meta); [contradiction|].
      reflexivity.
    + destruct Hmain as [->|Hmode];
        [destruct Hin as [[=]|[[=]|[[=]|[]]]]|].
      rewrite Hmode. unfold scopeEntries, scopeFields.
      split_meta meta.
      destruct Hin as [[= <- <-]|[[= <- <-]|[[= <- <-]|[]]]];
        destruct bs, ds, ims, exs; (contradiction || reflexivity).
  - intros Hkey. unfold generateSetNgModuleScopeCall.
    rewrite generateSetNgModuleScopeCall_traced_shape. cbn [fst].
    unfold scopeEntries, scopeFields. split_meta meta.
    destruct Hin as [[= <- <-]|[[= <- <-]|[[= <- <-]|[[= <- <-]|[]]]]];
      try (now elim Hkey);
      destruct ds, ims, exs; try contradiction;
      (eexists; split; [reflexivity | reflexivity]).
Qed.

Lemma refsToArray_lowered_shape_witness :
  In ("imports", [Sample.B; Sample.A])
    [("bootstrap", []); ("declarations", [Sample.C]);
     ("imports", [Sample.B; Sample.A]); ("exports", [])] /\
  [Sample.B; Sample.A] <> [] /\
  lookup "imports"
    (mainMap
       (Sample.meta [] [Sample.C] [Sample.B; Sample.A] [] Inline true
          None None)) =
  Some (o.FunctionExpr []
          [o.ReturnStatement
             (o.LiteralArrayExpr [o.ReadVarExpr "B"; o.ReadVarExpr "A"])]).
Proof.
  split; [right; right; left; reflexivity|]. split; [discriminate|].
  assert (Hin : In ("imports", [Sample.B; Sample.A])
            [("bootstrap", []); ("declarations", [Sample.C]);
             ("imports", [Sample.B; Sample.A]); ("exports", [])])
    by (right; right; left; reflexivity).
  assert (Hne : [Sample.B; Sample.A] <> []) by discriminate.
  destruct (refsToArray_lowered_shape
              (Sample.meta [] [Sample.C] [Sample.B; Sample.A] [] Inline true
                 None None)
              "imports" [Sample.B; Sample.A] Hin Hne)
    as (Hdeferred & _ & Hmain & _).
  rewrite (Hmain (or_intror eq_refl)), (Hdeferred eq_refl).
  reflexivity.
Defined.

(** ** Module ids *)

(** C4.  With an [id], the main definition map has the key [id] with that
    expression, and exactly one emitted statement is an id registration: the
    bare call [registerNgModuleType(adjacentType, id)].  Without one, the map
    has no [id] key and no statement is an id registration. *)
Theorem compileNgModule_id (meta : R3NgModuleMetadata.t) :
  (forall i, R3NgModuleMetadata.id meta = Some i ->
     lookup "id" (mainMap meta) = Some i /\
     filter isIdRegistration (emittedStatements meta) =
     [o.ExpressionStatement
        (o.InvokeFunctionExpr (o.ExternalExpr R3.registerNgModuleType None)
           [R3NgModuleMetadata.adjacentType meta; i] false)]) /\
  (R3NgModuleMetadata.id meta = None ->
     ~ In "id" (keys (mainMap meta)) /\
     filter isIdRegistration (emittedStatements meta) = []).
Proof.
  rewrite mainMap_entries, emittedStatements_shape.
  rewrite filter_app, filter_id_scopeStatements, filter_id_idStatements.
  unfold idStatements, mainEntries, idEntries, schemasEntries, scopeEntries,
    scopeFields.
  split.
  - intros v ->. split; [|reflexivity].
    split_meta meta. destruct bs, mode, ds, ims, exs, sch as [[|]|]; reflexivity.
  - intros ->. split; [|reflexivity].
    apply lookup_None_iff. split_meta meta.
    destruct bs, mode, ds, ims, exs, sch as [[|]|]; reflexivity.
Qed.

Lemma compileNgModule_id_witness :
  emittedStatements
    (Sample.meta [] [Sample.A] [] [] SideEffect false None
       (Some (o.ReadVarExpr "moduleId"))) =
  [scopeRegistration (o.ReadVarExpr "M_adjacent")
     [("declarations", o.LiteralArrayExpr [o.ReadVarExpr "A"])];
   idRegistration (o.ReadVarExpr "M_adjacent") (o.ReadVarExpr "moduleId")] /\
  filter isIdRegistration
    (emittedStatements
       (Sample.meta [] [Sample.A] [] [] SideEffect false None
          (Some (o.ReadVarExpr "moduleId")))) =
  [idRegistration (o.ReadVarExpr "M_adjacent") (o.ReadVarExpr "moduleId")] /\
  ~ In "id" (keys (mainMap (Sample.meta [] [] [] [] Omit false None None))).
Proof.
  split; [reflexivity|]. split.
  - apply (proj1 (compileNgModule_id
             (Sample.meta [] [Sample.A] [] [] SideEffect false None
                (Some (o.ReadVarExpr "moduleId"))))
             (o.ReadVarExpr "moduleId") eq_refl).
  - apply (proj2 (compileNgModule_id
             (Sample.meta [] [] [] [] Omit false None None)) eq_refl).
Defined.

(** ** The module type *)

Lemma tupleTypeOf_nil : tupleTypeOf [] = o.NONE_TYPE.
Proof. reflexivity. Qed.

Lemma tupleTypeOf_cons (r : R3Reference.t) (rs : list R3Reference.t) :
  tupleTypeOf (r :: rs) =
  o.ExpressionType
    (o.LiteralArrayExpr
       (map (fun ref => o.TypeofExpr (R3Reference.type ref)) (r :: rs))).
Proof. reflexivity. Qed.

(** C5.  [createNgModuleType] is the [NgModuleDeclaration] type with exactly
    four type arguments: the type-expression of the module's own reference
    and the tuple types of declarations, imports and exports.  [tupleTypeOf]
    is the "no references" type on the empty sequence and otherwise the tuple
    of the references' type-expressions (each under [typeof]), in order.
    Changing [bootstrap] and [schemas] leaves the type as it is.  This is the
    type [compileNgModule] returns. *)
Theorem createNgModuleType_shape (meta : R3NgModuleMetadata.t) :
  createNgModuleType meta =
  o.ExpressionType
    (o.ExternalExpr R3.NgModuleDeclaration
       (Some [o.ExpressionType
                (R3Reference.type (R3NgModuleMetadata.type meta));
              tupleTypeOf (R3NgModuleMetadata.declarations meta);
              tupleTypeOf (R3NgModuleMetadata.imports meta);
              tupleTypeOf (R3NgModuleMetadata.exports meta)])) /\
  tupleTypeOf [] = o.BuiltinType o.BuiltinNone /\
  (forall r rs,
     tupleTypeOf (r :: rs) =
     o.ExpressionType
       (o.LiteralArrayExpr
          (map (fun ref => o.TypeofExpr (R3Reference.type ref)) (r :: rs)))) /\
  (forall bootstrap schemas,
     createNgModuleType (withBootstrapAndSchemas meta bootstrap schemas) =
     createNgModuleType meta) /\
  R3CompiledExpression.type (compileNgModule meta) = createNgModuleType meta.
Proof.
  split; [reflexivity|].
  split; [exact tupleTypeOf_nil|].
  split; [exact tupleTypeOf_cons|].
  split.
  - intros bootstrap schemas. reflexivity.
  - unfold compileNgModule. now rewrite compileNgModule_traced_shape.
Qed.

(** ** The declaration path *)

(** C6.  [compileNgModuleDeclarationExpression] returns the call of
    [defineNgModule] on the literal map that has [type], always, and then
    each of [bootstrap], [declarations], [imports], [exports], [schemas],
    [id] that is defined, in this order, each value wrapped as it came (an
    empty array included).  With only [type] and [imports] defined the map
    is [type] then [imports]. *)
Theorem compileNgModuleDeclarationExpression_shape
  (meta : R3DeclareNgModuleFacade.t) :
  compileNgModuleDeclarationExpression meta =
  o.InvokeFunctionExpr (o.ExternalExpr R3.defineNgModule None)
    [o.LiteralMapExpr
       (("type", o.WrappedNodeExpr (R3DeclareNgModuleFacade.type meta))
        :: present "bootstrap" (R3DeclareNgModuleFacade.bootstrap meta)
        ++ present "declarations" (R3DeclareNgModuleFacade.declarations meta)
        ++ present "imports" (R3DeclareNgModuleFacade.imports meta)
        ++ present "exports" (R3DeclareNgModuleFacade.exports meta)
        ++ present "schemas" (R3DeclareNgModuleFacade.schemas meta)
        ++ present "id" (R3DeclareNgModuleFacade.id meta))] false /\
  (forall key v, present key (Some v) = [(key, o.WrappedNodeExpr v)]) /\
  (forall key, present key None = []) /\
  (forall t i,
     definitionMapOf
       (compileNgModuleDeclarationExpression
          (R3DeclareNgModuleFacade.mk t None None (Some i) None None None)) =
     [("type", o.WrappedNodeExpr t); ("imports", o.WrappedNodeExpr i)]).
Proof.
  split; [|repeat split].
  destruct meta as [t b d i e s n]. unfold compileNgModuleDeclarationExpression.
  cbn [R3DeclareNgModuleFacade.type R3DeclareNgModuleFacade.bootstrap
       R3DeclareNgModuleFacade.declarations R3DeclareNgModuleFacade.imports
       R3DeclareNgModuleFacade.exports R3DeclareNgModuleFacade.schemas
       R3DeclareNgModuleFacade.id].
  destruct b, d, i, e, s, n; reflexivity.
Qed.

(** ** Schemas *)

(** C7.  The main definition map has the key [schemas] exactly when
    [schemas] is given and non-empty; its value is the array literal of the
    schemas' value-expressions, whatever [containsForwardDecls] is. *)
Theorem compileNgModule_schemas (meta : R3NgModuleMetadata.t) :
  (forall s, R3NgModuleMetadata.schemas meta = Some s -> s <> [] ->
     lookup "schemas" (mainMap meta) =
     Some (o.LiteralArrayExpr (map R3Reference.value s))) /\
  (R3NgModuleMetadata.schemas meta = None \/
   R3NgModuleMetadata.schemas meta = Some [] ->
   ~ In "schemas" (keys (mainMap meta))).
Proof.
  rewrite mainMap_entries.
  unfold mainEntries, idEntries, schemasEntries, scopeEntries, scopeFields.
  split.
  - intros s -> Hne. destruct s as [|r rs]; [contradiction|].
    rewrite !app_comm_cons, !lookup_app.
    split_meta meta. destruct bs, mode, ds, ims, exs; reflexivity.
  - intros Hs. apply lookup_None_iff.
    assert (E : match R3NgModuleMetadata.schemas meta with
                | Some (r :: rs) => [("schemas", directArray (r :: rs))]
                | _ => []
                end = []) by (destruct Hs as [->| ->]; reflexivity).
    rewrite E. split_meta meta. destruct bs, mode, ds, ims, exs, i; reflexivity.
Qed.

Lemma compileNgModule_schemas_witness :
  lookup "schemas"
    (mainMap
       (Sample.meta [] [] [] [] Omit true (Some [Sample.A; Sample.B]) None)) =
  Some (o.LiteralArrayExpr [o.ReadVarExpr "A"; o.ReadVarExpr "B"]) /\
  ~ In "schemas"
      (keys (mainMap (Sample.meta [] [] [] [] Omit true (Some []) None))).
Proof.
  split.
  - apply (proj1 (compileNgModule_schemas
             (Sample.meta [] [] [] [] Omit true (Some [Sample.A; Sample.B])
                None))
             [Sample.A; Sample.B] eq_refl).
    discriminate.
  - apply (proj2 (compileNgModule_schemas
             (Sample.meta [] [] [] [] Omit true (Some []) None))).
    right. reflexivity.
Defined.

(** ** Type and bootstrap *)

(** C8.  The main definition map, the literal map of the [defineNgModule]
    call, starts with the key [type] bound to [internalType]; it has the key
    [bootstrap] exactly when [bootstrap] is non-empty, bound to the lowered
    bootstrap references. *)
Theorem compileNgModule_type_bootstrap (meta : R3NgModuleMetadata.t) :
  R3CompiledExpression.expression (compileNgModule meta) =
    o.InvokeFunctionExpr (o.ExternalExpr R3.defineNgModule None)
      [o.LiteralMapExpr (mainMap meta)] true /\
  (exists rest,
     mainMap meta = ("type", R3NgModuleMetadata.internalType meta) :: rest /\
     ~ In "type" (keys rest)) /\
  (R3NgModuleMetadata.bootstrap meta <> [] ->
   lookup "bootstrap" (mainMap meta) =
   Some (refsToArray (R3NgModuleMetadata.bootstrap meta)
           (R3NgModuleMetadata.containsForwardDecls meta))) /\
  (R3NgModuleMetadata.bootstrap meta = [] ->
   ~ In "bootstrap" (keys (mainMap meta))).
Proof.
  rewrite compileNgModule_expression, mainMap_entries.
  unfold mainEntries, idEntries, schemasEntries, scopeEntries, scopeFields.
  split; [reflexivity|]. split; [|split].
  - eexists. split; [reflexivity|].
    apply lookup_None_iff. split_meta meta.
    destruct bs, mode, ds, ims, exs, sch as [[|]|], i; reflexivity.
  - intros Hne.
    destruct (R3NgModuleMetadata.bootstrap meta) as [|b bs'];
      [contradiction | reflexivity].
  - intros ->. apply lookup_None_iff. split_meta meta.
    destruct mode, ds, ims, exs, sch as [[|]|], i; reflexivity.
Qed.

Lemma compileNgModule_type_bootstrap_witness :
  lookup "bootstrap"
    (mainMap (Sample.meta [Sample.A] [] [] [] Omit false None None)) =
  Some (o.LiteralArrayExpr [o.ReadVarExpr "A"]) /\
  ~ In "bootstrap"
      (keys (mainMap (Sample.meta [] [Sample.A] [] [] Inline false None None))).
Proof.
  split.
  - apply (compileNgModule_type_bootstrap
             (Sample.meta [Sample.A] [] [] [] Omit false None None)).
    discriminate.
  - apply (compileNgModule_type_bootstrap
             (Sample.meta [] [Sample.A] [] [] Inline false None None)).
    reflexivity.
Defined.

(** ** Call sites of the reference lowering *)

(** C9.  No call of [refsToArray] made during [compileNgModule] (the calls
    of [generateSetNgModuleScopeCall] it makes included), and none made by
    [generateSetNgModuleScopeCall] on its own, receives an empty sequence. *)
Theorem refsToArray_calls_nonempty (meta : R3NgModuleMetadata.t)
  (call : RefsCall.t) :
  In call (refsToArray_calls meta) \/
  In call (snd (generateSetNgModuleScopeCall_traced meta)) ->
  RefsCall.refs call <> [] /\ 0 < length (RefsCall.refs call).
Proof.
  rewrite refsToArray_calls_shape, generateSetNgModuleScopeCall_traced_shape.
  cbn [snd]. intros H.
  assert (Hne : RefsCall.refs call <> []).
  { destruct H as [H|H]; apply In_callsNonEmpty in H; tauto. }
  split; [exact Hne|].
  destruct (RefsCall.refs call); [contradiction | cbn; lia].
Qed.

Lemma refsToArray_calls_nonempty_witness :
  refsToArray_calls
    (Sample.meta [Sample.A] [] [Sample.B; Sample.C] [] SideEffect true
       None None) =
  [RefsCall.mk [Sample.A] true; RefsCall.mk [Sample.B; Sample.C] true] /\
  RefsCall.refs (RefsCall.mk [Sample.B; Sample.C] true) <> [].
Proof.
  split; [reflexivity|].
  apply (refsToArray_calls_nonempty
           (Sample.meta [Sample.A] [] [Sample.B; Sample.C] [] SideEffect true
              None None)
           (RefsCall.mk [Sample.B; Sample.C] true)).
  left. right. left. reflexivity.
Defined.

(** ** Order of the statements *)

Lemma no_scope_after_id (scopes ids : list o.Statement) :
  forallb (fun x => negb (isIdRegistration x)) scopes = true ->
  forallb (fun x => negb (isScopeRegistration x)) ids = true ->
  forall pre s post,
    scopes ++ ids = pre ++ s :: post ->
    isIdRegistration s = true ->
    forallb (fun x => negb (isScopeRegistration x)) post = true.
Proof.
  intros Hscopes Hids.
  induction scopes as [|a scopes IH]; cbn in *; intros pre s post E Hs.
  - rewrite E, forallb_app in Hids. cbn in Hids.
    apply andb_prop in Hids. destruct Hids as [_ Hids].
    apply andb_prop in Hids. tauto.
  - apply andb_prop in Hscopes. destruct Hscopes as [Ha Hscopes].
    destruct pre as [|p pre]; cbn in E; injection E as -> E.
    + rewrite Hs in Ha. discriminate.
    + exact (IH Hscopes pre s post E Hs).
Qed.

(** C10.  In [SideEffect] mode with a non-empty declarations, imports or
    exports and an [id], the statements are exactly two: the scope
    registration, then the id registration.  For every metadata, no scope
    registration comes after an id registration. *)
Theorem compileNgModule_statement_order (meta : R3NgModuleMetadata.t) :
  (forall i,
     R3NgModuleMetadata.selectorScopeMode meta = SideEffect ->
     R3NgModuleMetadata.declarations meta <> [] \/
     R3NgModuleMetadata.imports meta <> [] \/
     R3NgModuleMetadata.exports meta <> [] ->
     R3NgModuleMetadata.id meta = Some i ->
     emittedStatements meta =
     [scopeRegistration (R3NgModuleMetadata.adjacentType meta)
        (loweredNonEmpty
           [("declarations", R3NgModuleMetadata.declarations meta);
            ("imports", R3NgModuleMetadata.imports meta);
            ("exports", R3NgModuleMetadata.exports meta)]
           (R3NgModuleMetadata.containsForwardDecls meta));
      idRegistration (R3NgModuleMetadata.adjacentType meta) i]) /\
  (forall pre s post,
     emittedStatements meta = pre ++ s :: post ->
     isIdRegistration s = true ->
     forallb (fun x => negb (isScopeRegistration x)) post = true).
Proof.
  rewrite emittedStatements_shape. unfold scopeStatements, idStatements.
  split.
  - intros v Hmode Hne ->. rewrite Hmode.
    fold (scopeFields meta). fold (scopeEntries meta).
    destruct (scopeEntries meta) eqn:E; [|reflexivity].
    apply scopeEntries_nil_iff in E. destruct E as (Hd & Hi & He).
    destruct Hne as [H|[H|H]]; contradiction.
  - intros pre s post H Hs.
    refine (no_scope_after_id _ _ _ _ pre s post H Hs).
    + now destruct (R3NgModuleMetadata.selectorScopeMode meta),
        (scopeEntries meta).
    + now destruct (R3NgModuleMetadata.id meta).
Qed.

Lemma compileNgModule_statement_order_witness :
  emittedStatements
    (Sample.meta [] [] [] [Sample.C] SideEffect false None
       (Some (o.ReadVarExpr "moduleId"))) =
  [scopeRegistration (o.ReadVarExpr "M_adjacent")
     [("exports", o.LiteralArrayExpr [o.ReadVarExpr "C"])];
   idRegistration (o.ReadVarExpr "M_adjacent") (o.ReadVarExpr "moduleId")].
Proof.
  apply (proj1 (compileNgModule_statement_order
           (Sample.meta [] [] [] [Sample.C] SideEffect false None
              (Some (o.ReadVarExpr "moduleId"))))
           (o.ReadVarExpr "moduleId") eq_refl).
  - right. right. discriminate.
  - reflexivity.
Defined.

(** ** Further properties of the module compiler *)

(** *** Subsequences of keys *)

Lemma isSubsequence_In (l2 l1 : list string) :
  isSubsequence l1 l2 = true -> forall x, In x l1 -> In x l2.
Proof.
  revert l1. induction l2 as [|y ys IH]; intros [|x xs] H z Hz; cbn in *;
    try contradiction; try discriminate.
  destruct (String.eqb_spec x y) as [->|Hne].
  - destruct Hz as [->|Hz]; [now left | right; exact (IH xs H z Hz)].
  - right. apply (IH (x :: xs) H z). exact Hz.
Qed.

Lemma isSubsequence_NoDup (l2 l1 : list string) :
  isSubsequence l1 l2 = true -> NoDup l2 -> NoDup l1.
Proof.
  revert l1. induction l2 as [|y ys IH]; intros [|x xs] H Hnd;
    try constructor; cbn in H; try discriminate.
  - inversion Hnd as [|? ? Hy Hys]; subst.
    destruct (String.eqb_spec x y) as [->|Hne].
    + intros Hin. apply Hy. exact (isSubsequence_In ys xs H y Hin).
    + assert (Hx : NoDup (x :: xs)) by exact (IH (x :: xs) H Hys).
      now inversion Hx.
  - inversion Hnd as [|? ? Hy Hys]; subst.
    destruct (String.eqb_spec x y) as [->|Hne].
    + exact (IH xs H Hys).
    + assert (Hx : NoDup (x :: xs)) by exact (IH (x :: xs) H Hys).
      now inversion Hx.
Qed.

Lemma isSubsequence_length (l2 l1 : list string) :
  isSubsequence l1 l2 = true -> length l1 <= length l2.
Proof.
  revert l1. induction l2 as [|y ys IH]; intros [|x xs] H; cbn in *;
    try lia; try discriminate.
  destruct (String.eqb x y).
  - specialize (IH xs H). lia.
  - specialize (IH (x :: xs) H). cbn in IH. lia.
Qed.

Lemma NoDup_defKeyOrder : NoDup defKeyOrder.
Proof.
  unfold defKeyOrder.
  repeat (constructor; [cbn; intuition discriminate|]). constructor.
Qed.

(** *** The omit mode *)

(** X1.  In [Omit] mode the selector scope leaves no trace: the main map has
    none of the keys [declarations], [imports], [exports], no statement is a
    scope registration, and the only reference lowering performed is that of
    a non-empty [bootstrap]. *)
Theorem compileNgModule_Omit_scope (meta : R3NgModuleMetadata.t) :
  R3NgModuleMetadata.selectorScopeMode meta = Omit ->
  (~ In "declarations" (keys (mainMap meta)) /\
   ~ In "imports" (keys (mainMap meta)) /\
   ~ In "exports" (keys (mainMap meta))) /\
  filter isScopeRegistration (emittedStatements meta) = [] /\
  refsToArray_calls meta =
  match R3NgModuleMetadata.bootstrap meta with
  | [] => []
  | _ :: _ =>
      [RefsCall.mk (R3NgModuleMetadata.bootstrap meta)
         (R3NgModuleMetadata.containsForwardDecls meta)]
  end.
Proof.
  intros Hmode.
  rewrite mainMap_entries, emittedStatements_shape, refsToArray_calls_shape.
  rewrite filter_app, filter_scope_idStatements, app_nil_r.
  unfold mainEntries, scopeStatements, schemasEntries, idEntries.
  rewrite Hmode. split; [|split].
  - repeat split; absent_key.
  - reflexivity.
  - unfold callsNonEmpty. cbn.
    now destruct (R3NgModuleMetadata.bootstrap meta).
Qed.

Lemma compileNgModule_Omit_scope_witness :
  R3NgModuleMetadata.selectorScopeMode
    (Sample.meta [Sample.A] [Sample.B] [Sample.C] [Sample.B] Omit true
       None None) = Omit /\
  refsToArray_calls
    (Sample.meta [Sample.A] [Sample.B] [Sample.C] [Sample.B] Omit true
       None None) = [RefsCall.mk [Sample.A] true].
Proof.
  split; [reflexivity|].
  apply (compileNgModule_Omit_scope
           (Sample.meta [Sample.A] [Sample.B] [Sample.C] [Sample.B] Omit true
              None None) eq_refl).
Defined.

(** *** Order of the keys *)

(** X2.  The keys of the main definition map are [type], [bootstrap],
    [declarations], [imports], [exports], [schemas], [id] with some left
    out, in this order; no key occurs twice, and there are at most seven. *)
Theorem compileNgModule_key_order (meta : R3NgModuleMetadata.t) :
  isSubsequence (keys (mainMap meta)) defKeyOrder = true /\
  NoDup (keys (mainMap meta)) /\
  length (mainMap meta) <= 7.
Proof.
  assert (H : isSubsequence (keys (mainMap meta)) defKeyOrder = true).
  { rewrite mainMap_entries.
    unfold mainEntries, schemasEntries, idEntries, scopeEntries, scopeFields.
    split_meta meta. split_seqs bs ds ims exs mode sch i; reflexivity. }
  split; [exact H|]. split.
  - exact (isSubsequence_NoDup _ _ H NoDup_defKeyOrder).
  - apply isSubsequence_length in H. unfold keys in H.
    rewrite length_map in H. exact H.
Qed.

(** *** The statements *)

(** X3.  [compileNgModule] emits at most two statements, and none exactly
    when there is no [id] and either the mode is not [SideEffect] or
    declarations, imports and exports are all empty. *)
Theorem compileNgModule_statements_empty (meta : R3NgModuleMetadata.t) :
  length (emittedStatements meta) <= 2 /\
  (emittedStatements meta = [] <->
   R3NgModuleMetadata.id meta = None /\
   (R3NgModuleMetadata.selectorScopeMode meta <> SideEffect \/
    R3NgModuleMetadata.declarations meta = [] /\
    R3NgModuleMetadata.imports meta = [] /\
    R3NgModuleMetadata.exports meta = [])).
Proof.
  rewrite emittedStatements_shape. unfold scopeStatements, idStatements.
  pose proof (scopeEntries_nil_iff meta) as Hnil.
  split.
  - destruct (R3NgModuleMetadata.selectorScopeMode meta),
      (scopeEntries meta), (R3NgModuleMetadata.id meta); cbn; lia.
  - split.
    + intros H. apply app_eq_nil in H. destruct H as [Hs Hi]. split.
      * destruct (R3NgModuleMetadata.id meta); [discriminate | reflexivity].
      * destruct (R3NgModuleMetadata.selectorScopeMode meta);
          try (left; discriminate).
        right. apply Hnil.
        destruct (scopeEntries meta); [reflexivity | discriminate].
    + intros [Hid Hsc]. rewrite Hid, app_nil_r. destruct Hsc as [Hm|Hall].
      * destruct (R3NgModuleMetadata.selectorScopeMode meta);
          try reflexivity.
        now elim Hm.
      * apply Hnil in Hall. rewrite Hall.
        now destruct (R3NgModuleMetadata.selectorScopeMode meta).
Qed.

Lemma compileNgModule_statements_empty_witness :
  emittedStatements
    (Sample.meta [Sample.A] [] [] [] SideEffect true (Some [Sample.B]) None)
  = [].
Proof.
  apply (proj2 (compileNgModule_statements_empty
           (Sample.meta [Sample.A] [] [] [] SideEffect true (Some [Sample.B])
              None))).
  split; [reflexivity|]. right. repeat split.
Defined.

(** *** What the definition call refers to *)

(** X4.  Outside [Inline] mode the definition call does not depend on
    declarations, imports and exports: replacing them by any other sequences
    gives the same expression. *)
Theorem compileNgModule_expression_ignores_scope (meta : R3NgModuleMetadata.t)
  (declarations imports exports : list R3Reference.t) :
  R3NgModuleMetadata.selectorScopeMode meta <> Inline ->
  R3CompiledExpression.expression
    (compileNgModule (withScope meta declarations imports exports)) =
  R3CompiledExpression.expression (compileNgModule meta).
Proof.
  intros Hmode. rewrite !compileNgModule_expression.
  unfold mainEntries, schemasEntries, idEntries. split_meta meta.
  destruct mode; [now elim Hmode | reflexivity | reflexivity].
Qed.

Lemma compileNgModule_expression_ignores_scope_witness :
  R3NgModuleMetadata.selectorScopeMode
    (Sample.meta [Sample.A] [Sample.B] [] [Sample.C] SideEffect true
       None None) <> Inline /\
  R3CompiledExpression.expression
    (compileNgModule
       (Sample.meta [Sample.A] [] [Sample.A] [] SideEffect true None None)) =
  R3CompiledExpression.expression
    (compileNgModule
       (Sample.meta [Sample.A] [Sample.B] [] [Sample.C] SideEffect true
          None None)).
Proof.
  split; [discriminate|].
  apply (compileNgModule_expression_ignores_scope
           (Sample.meta [Sample.A] [Sample.B] [] [Sample.C] SideEffect true
              None None)
           [] [Sample.A] []).
  discriminate.
Defined.

(** X5.  An empty [schemas] array and a [null] one give the same output and
    the same reference lowerings. *)
Theorem compileNgModule_schemas_empty_as_null (meta : R3NgModuleMetadata.t) :
  R3NgModuleMetadata.schemas meta = Some [] ->
  compileNgModule_traced meta =
  compileNgModule_traced
    (withBootstrapAndSchemas meta (R3NgModuleMetadata.bootstrap meta) None).
Proof.
  intros Hs. rewrite !compileNgModule_traced_shape.
  unfold mainEntries, schemasEntries, idEntries, scopeStatements,
    idStatements, scopeEntries, scopeFields.
  split_meta meta. subst sch. reflexivity.
Qed.

Lemma compileNgModule_schemas_empty_as_null_witness :
  R3NgModuleMetadata.schemas
    (Sample.meta [] [Sample.A] [] [] Inline false (Some []) None) = Some [] /\
  compileNgModule
    (Sample.meta [] [Sample.A] [] [] Inline false (Some []) None) =
  compileNgModule
    (Sample.meta [] [Sample.A] [] [] Inline false None None).
Proof.
  split; [reflexivity|].
  exact (f_equal fst
           (compileNgModule_schemas_empty_as_null
              (Sample.meta [] [Sample.A] [] [] Inline false (Some []) None)
              eq_refl)).
Defined.

(** X6.  When declarations, imports and exports are all empty the mode makes
    no difference: every mode gives the same output and lowers the same
    sequences. *)
Theorem compileNgModule_mode_irrelevant_on_empty_scope
  (meta : R3NgModuleMetadata.t) (mode : R3SelectorScopeMode) :
  R3NgModuleMetadata.declarations meta = [] ->
  R3NgModuleMetadata.imports meta = [] ->
  R3NgModuleMetadata.exports meta = [] ->
  compileNgModule_traced (withSelectorScopeMode meta mode) =
  compileNgModule_traced meta.
Proof.
  intros Hd Hi He. rewrite !compileNgModule_traced_shape.
  unfold mainEntries, schemasEntries, idEntries, scopeStatements,
    idStatements, scopeEntries, scopeFields, createNgModuleType.
  destruct meta as [ty ity aty bs ds ims exs m fwd sch i]. cbn in *. subst.
  destruct mode, m, bs; reflexivity.
Qed.

Lemma compileNgModule_mode_irrelevant_on_empty_scope_witness :
  compileNgModule
    (Sample.meta [Sample.A] [] [] [] SideEffect true None None) =
  compileNgModule (Sample.meta [Sample.A] [] [] [] Inline true None None).
Proof.
  exact (f_equal fst
           (compileNgModule_mode_irrelevant_on_empty_scope
              (Sample.meta [Sample.A] [] [] [] Inline true None None)
              SideEffect eq_refl eq_refl eq_refl)).
Defined.

(** *** Inline and side-effect emission carry the same scope *)

(** X7.  The [Inline] main map is the [SideEffect] (or [Omit]) main map with
    the scope map of [generateSetNgModuleScopeCall] spliced in right after
    [type] and [bootstrap]: the two modes carry the same scope entries, in
    the same order. *)
Theorem compileNgModule_Inline_splices_scope_map (meta : R3NgModuleMetadata.t) :
  exists post,
    mainMap (withSelectorScopeMode meta Inline) =
    (("type", R3NgModuleMetadata.internalType meta)
     :: loweredNonEmpty [("bootstrap", R3NgModuleMetadata.bootstrap meta)]
          (R3NgModuleMetadata.containsForwardDecls meta))
    ++ scopeMapOf (generateSetNgModuleScopeCall meta) ++ post /\
    mainMap (withSelectorScopeMode meta SideEffect) =
    (("type", R3NgModuleMetadata.internalType meta)
     :: loweredNonEmpty [("bootstrap", R3NgModuleMetadata.bootstrap meta)]
          (R3NgModuleMetadata.containsForwardDecls meta))
    ++ post /\
    mainMap (withSelectorScopeMode meta Omit) =
    mainMap (withSelectorScopeMode meta SideEffect).
Proof.
  exists (schemasEntries meta ++ idEntries meta).
  rewrite !mainMap_entries. unfold generateSetNgModuleScopeCall.
  rewrite generateSetNgModuleScopeCall_traced_shape. cbn [fst].
  assert (E : scopeMapOf
                match scopeEntries meta with
                | [] => None
                | e :: es =>
                    Some (scopeRegistration
                            (R3NgModuleMetadata.adjacentType meta) (e :: es))
                end = scopeEntries meta)
    by now destruct (scopeEntries meta).
  rewrite E. unfold mainEntries, schemasEntries, idEntries, scopeEntries,
    scopeFields.
  destruct meta as [ty ity aty bs ds ims exs m fwd sch i]. cbn.
  repeat split.
Qed.

(** X8.  [generateSetNgModuleScopeCall] returns no statement exactly when
    declarations, imports and exports are all empty, and its result does not
    depend on the mode, on [bootstrap] or on [schemas]. *)
Theorem generateSetNgModuleScopeCall_null_iff (meta : R3NgModuleMetadata.t) :
  (generateSetNgModuleScopeCall meta = None <->
   R3NgModuleMetadata.declarations meta = [] /\
   R3NgModuleMetadata.imports meta = [] /\
   R3NgModuleMetadata.exports meta = []) /\
  (forall mode bootstrap schemas,
     generateSetNgModuleScopeCall
       (withBootstrapAndSchemas (withSelectorScopeMode meta mode)
          bootstrap schemas) =
     generateSetNgModuleScopeCall meta).
Proof.
  split.
  - unfold generateSetNgModuleScopeCall.
    rewrite generateSetNgModuleScopeCall_traced_shape. cbn [fst].
    rewrite <- scopeEntries_nil_iff.
    destruct (scopeEntries meta); split; (reflexivity || discriminate).
  - intros mode bootstrap schemas. reflexivity.
Qed.

Lemma generateSetNgModuleScopeCall_null_iff_witness :
  generateSetNgModuleScopeCall
    (Sample.meta [Sample.A] [] [] [] Inline true (Some [Sample.B]) None) =
  None.
Proof.
  apply (proj1 (generateSetNgModuleScopeCall_null_iff
           (Sample.meta [Sample.A] [] [] [] Inline true (Some [Sample.B])
              None))).
  repeat split.
Defined.

(** *** The reference lowerings *)

(** X9.  Every reference lowering [compileNgModule] performs is of one of
    [bootstrap], [declarations], [imports], [exports], with the metadata's
    [containsForwardDecls] as its flag; there are at most four of them. *)
Theorem refsToArray_calls_arguments (meta : R3NgModuleMetadata.t) :
  length (refsToArray_calls meta) <= 4 /\
  (forall call, In call (refsToArray_calls meta) ->
     RefsCall.shouldForwardDeclare call =
     R3NgModuleMetadata.containsForwardDecls meta /\
     In (RefsCall.refs call)
       [R3NgModuleMetadata.bootstrap meta;
        R3NgModuleMetadata.declarations meta;
        R3NgModuleMetadata.imports meta;
        R3NgModuleMetadata.exports meta]).
Proof.
  rewrite refsToArray_calls_shape. split.
  - unfold callsNonEmpty. rewrite length_map.
    match goal with
    | |- length (filter ?f ?l) <= _ =>
        pose proof (filter_length_le f l) as Hle;
        assert (Hl : length l <= 4)
          by (destruct (R3NgModuleMetadata.selectorScopeMode meta);
              cbn; lia)
    end.
    lia.
  - intros call Hin. apply In_callsNonEmpty in Hin.
    destruct Hin as (Hin & _ & Hfwd). split; [exact Hfwd|].
    destruct (R3NgModuleMetadata.selectorScopeMode meta); cbn in Hin |- *;
      tauto.
Qed.

Lemma refsToArray_calls_arguments_witness :
  In (RefsCall.mk [Sample.C] false)
    (refsToArray_calls
       (Sample.meta [] [Sample.A] [] [Sample.C] Inline false None None)) /\
  In [Sample.C] [[]; [Sample.A]; []; [Sample.C]].
Proof.
  assert (Hin : In (RefsCall.mk [Sample.C] false)
            (refsToArray_calls
               (Sample.meta [] [Sample.A] [] [Sample.C] Inline false
                  None None)))
    by (right; left; reflexivity).
  split; [exact Hin|].
  exact (proj2 (proj2 (refsToArray_calls_arguments
           (Sample.meta [] [Sample.A] [] [Sample.C] Inline false None None))
           (RefsCall.mk [Sample.C] false) Hin)).
Defined.

(** X10.  In [SideEffect] mode [compileNgModule] delegates the scope to
    [generateSetNgModuleScopeCall]: its statements are the statement that
    function returns, if any, followed by the id registration, if any, and
    its reference lowerings are that of a non-empty [bootstrap] followed by
    those of that function. *)
Theorem compileNgModule_SideEffect_delegates (meta : R3NgModuleMetadata.t) :
  R3NgModuleMetadata.selectorScopeMode meta = SideEffect ->
  emittedStatements meta =
    match generateSetNgModuleScopeCall meta with
    | Some stmt => [stmt]
    | None => []
    end
    ++ match R3NgModuleMetadata.id meta with
       | Some i => [idRegistration (R3NgModuleMetadata.adjacentType meta) i]
       | None => []
       end /\
  refsToArray_calls meta =
    match R3NgModuleMetadata.bootstrap meta with
    | [] => []
    | _ :: _ =>
        [RefsCall.mk (R3NgModuleMetadata.bootstrap meta)
           (R3NgModuleMetadata.containsForwardDecls meta)]
    end
    ++ snd (generateSetNgModuleScopeCall_traced meta).
Proof.
  intros Hmode.
  rewrite emittedStatements_shape, refsToArray_calls_shape.
  unfold generateSetNgModuleScopeCall.
  rewrite generateSetNgModuleScopeCall_traced_shape. cbn [fst snd].
  unfold scopeStatements, idStatements. rewrite Hmode. split.
  - now destruct (scopeEntries meta).
  - unfold callsNonEmpty. cbn [filter map].
    now destruct (R3NgModuleMetadata.bootstrap meta).
Qed.

Lemma compileNgModule_SideEffect_delegates_witness :
  R3NgModuleMetadata.selectorScopeMode
    (Sample.meta [Sample.A] [] [Sample.B] [] SideEffect true None None) =
  SideEffect /\
  refsToArray_calls
    (Sample.meta [Sample.A] [] [Sample.B] [] SideEffect true None None) =
  [RefsCall.mk [Sample.A] true] ++
  snd (generateSetNgModuleScopeCall_traced
         (Sample.meta [Sample.A] [] [Sample.B] [] SideEffect true None None)).
Proof.
  split; [reflexivity|].
  apply (compileNgModule_SideEffect_delegates
           (Sample.meta [Sample.A] [] [Sample.B] [] SideEffect true None None)
           eq_refl).
Defined.

(** *** The three spellings of the module type *)

(** X11.  Of [type], [internalType] and [adjacentType], the definition call
    uses only [internalType], the statements use only [adjacentType], and
    the type annotation uses only [type]. *)
Theorem compileNgModule_type_spellings (meta : R3NgModuleMetadata.t)
  (type type' : R3Reference.t)
  (internalType internalType' adjacentType adjacentType' : o.Expression) :
  R3CompiledExpression.expression
    (compileNgModule (withTypes meta type internalType adjacentType)) =
  R3CompiledExpression.expression
    (compileNgModule (withTypes meta type' internalType adjacentType')) /\
  R3CompiledExpression.statements
    (compileNgModule (withTypes meta type internalType adjacentType)) =
  R3CompiledExpression.statements
    (compileNgModule (withTypes meta type' internalType' adjacentType)) /\
  R3CompiledExpression.type
    (compileNgModule (withTypes meta type internalType adjacentType)) =
  R3CompiledExpression.type
    (compileNgModule (withTypes meta type internalType' adjacentType')).
Proof.
  unfold compileNgModule. rewrite !compileNgModule_traced_shape.
  cbn [fst R3CompiledExpression.expression R3CompiledExpression.statements
       R3CompiledExpression.type].
  repeat split.
Qed.

(** *** The empty module *)

(** X12.  A module with nothing to emit (no bootstrap, declarations, imports
    or exports, no or empty schemas, no id) compiles, in every mode, to the
    definition call on the map with the single key [type], with no
    statement, with the type whose three tuples are the "no references"
    type, and without lowering any references. *)
Theorem compileNgModule_empty_module (meta : R3NgModuleMetadata.t) :
  R3NgModuleMetadata.bootstrap meta = [] ->
  R3NgModuleMetadata.declarations meta = [] ->
  R3NgModuleMetadata.imports meta = [] ->
  R3NgModuleMetadata.exports meta = [] ->
  R3NgModuleMetadata.schemas meta = None \/
  R3NgModuleMetadata.schemas meta = Some [] ->
  R3NgModuleMetadata.id meta = None ->
  compileNgModule_traced meta =
  (R3CompiledExpression.mk
     (o.InvokeFunctionExpr (o.ExternalExpr R3.defineNgModule None)
        [o.LiteralMapExpr [("type", R3NgModuleMetadata.internalType meta)]]
        true)
     (o.ExpressionType
        (o.ExternalExpr R3.NgModuleDeclaration
           (Some [o.ExpressionType
                    (R3Reference.type (R3NgModuleMetadata.type meta));
                  o.NONE_TYPE; o.NONE_TYPE; o.NONE_TYPE])))
     [],
   []).
Proof.
  intros Hb Hd Hi He Hs Hid.
  destruct meta as [ty ity aty bs ds ims exs m fwd sch i]. cbn in *. subst.
  destruct Hs as [->| ->]; destruct m; reflexivity.
Qed.

Lemma compileNgModule_empty_module_witness :
  R3CompiledExpression.statements
    (compileNgModule (Sample.meta [] [] [] [] SideEffect true (Some []) None))
  = [] /\
  definitionMapOf
    (R3CompiledExpression.expression
       (compileNgModule
          (Sample.meta [] [] [] [] SideEffect true (Some []) None))) =
  [("type", o.ReadVarExpr "M_internal")].
Proof.
  pose proof (compileNgModule_empty_module
                (Sample.meta [] [] [] [] SideEffect true (Some []) None)
                eq_refl eq_refl eq_refl eq_refl (or_intror eq_refl) eq_refl)
    as H.
  unfold compileNgModule. rewrite H. split; reflexivity.
Defined.

(** ** Further properties of the declaration path *)

(** X13.  Reading the map of [compileNgModuleDeclarationExpression] back:
    [type] gives the wrapped type, and each of the six optional keys gives
    the wrapped field when the field is defined and nothing when it is
    [undefined]; a defined field is never dropped, whatever its value
    ([null] and the empty array included). *)
Theorem compileNgModuleDeclarationExpression_lookup
  (meta : R3DeclareNgModuleFacade.t) :
  let m := definitionMapOf (compileNgModuleDeclarationExpression meta) in
  lookup "type" m = Some (o.WrappedNodeExpr (R3DeclareNgModuleFacade.type meta))
  /\ lookup "bootstrap" m =
     option_map o.WrappedNodeExpr (R3DeclareNgModuleFacade.bootstrap meta)
  /\ lookup "declarations" m =
     option_map o.WrappedNodeExpr (R3DeclareNgModuleFacade.declarations meta)
  /\ lookup "imports" m =
     option_map o.WrappedNodeExpr (R3DeclareNgModuleFacade.imports meta)
  /\ lookup "exports" m =
     option_map o.WrappedNodeExpr (R3DeclareNgModuleFacade.exports meta)
  /\ lookup "schemas" m =
     option_map o.WrappedNodeExpr (R3DeclareNgModuleFacade.schemas meta)
  /\ lookup "id" m =
     option_map o.WrappedNodeExpr (R3DeclareNgModuleFacade.id meta).
Proof.
  destruct meta as [t b d i e s n]. cbv zeta.
  destruct b, d, i, e, s, n; cbn; repeat split.
Qed.

(** X14.  The keys of the declaration path's map are [type], [bootstrap],
    [declarations], [imports], [exports], [schemas], [id] with the undefined
    ones left out, in this order; no key occurs twice, and there is one key
    more than there are defined optional fields. *)
Theorem compileNgModuleDeclarationExpression_key_order
  (meta : R3DeclareNgModuleFacade.t) :
  isSubsequence
    (keys (definitionMapOf (compileNgModuleDeclarationExpression meta)))
    defKeyOrder = true /\
  NoDup (keys (definitionMapOf (compileNgModuleDeclarationExpression meta))) /\
  length (definitionMapOf (compileNgModuleDeclarationExpression meta)) =
  1 + length (definedFields meta).
Proof.
  assert (H : isSubsequence
                (keys (definitionMapOf
                         (compileNgModuleDeclarationExpression meta)))
                defKeyOrder = true).
  { destruct meta as [t b d i e s n]. destruct b, d, i, e, s, n; reflexivity. }
  split; [exact H|]. split.
  - exact (isSubsequence_NoDup _ _ H NoDup_defKeyOrder).
  - destruct meta as [t b d i e s n]. destruct b, d, i, e, s, n; reflexivity.
Qed.

(** ** Further properties of the module type *)

Lemma map_typeofExpr_inj (a b : list R3Reference.t) :
  map (fun ref => o.typeofExpr (R3Reference.type ref)) a =
  map (fun ref => o.typeofExpr (R3Reference.type ref)) b ->
  map R3Reference.type a = map R3Reference.type b.
Proof.
  revert b. induction a as [|x a IH]; intros [|y b] H; cbn in *;
    try discriminate; [reflexivity|].
  injection H as Hx Hab. rewrite Hx. f_equal. exact (IH b Hab).
Qed.

Lemma tupleTypeOf_map_type (a b : list R3Reference.t) :
  map R3Reference.type a = map R3Reference.type b ->
  tupleTypeOf a = tupleTypeOf b.
Proof.
  intros H. unfold tupleTypeOf.
  assert (Hlen : length a = length b)
    by (rewrite <- (length_map R3Reference.type a), H; apply length_map).
  rewrite Hlen. destruct (0 <? length b); [|reflexivity].
  unfold o.expressionType, o.literalArr. do 2 f_equal.
  rewrite <- (map_map R3Reference.type o.typeofExpr a).
  rewrite <- (map_map R3Reference.type o.typeofExpr b).
  now rewrite H.
Qed.

Lemma tupleTypeOf_inj (a b : list R3Reference.t) :
  tupleTypeOf a = tupleTypeOf b ->
  map R3Reference.type a = map R3Reference.type b.
Proof.
  destruct a as [|x a], b as [|y b]; cbn; intros H;
    try discriminate; [reflexivity|].
  injection H as Hx Hab. rewrite Hx. f_equal.
  exact (map_typeofExpr_inj a b Hab).
Qed.

(** X15.  [tupleTypeOf] is the "no references" type only on the empty
    sequence, and two sequences have the same tuple type exactly when their
    type-expressions agree one by one; so two modules have the same
    [createNgModuleType] exactly when the type-expressions of their own type
    and of their declarations, imports and exports agree. *)
Theorem createNgModuleType_eq_iff (m1 m2 : R3NgModuleMetadata.t) :
  (forall refs, tupleTypeOf refs = o.NONE_TYPE <-> refs = []) /\
  (forall a b,
     tupleTypeOf a = tupleTypeOf b <->
     map R3Reference.type a = map R3Reference.type b) /\
  (createNgModuleType m1 = createNgModuleType m2 <->
   R3Reference.type (R3NgModuleMetadata.type m1) =
   R3Reference.type (R3NgModuleMetadata.type m2) /\
   map R3Reference.type (R3NgModuleMetadata.declarations m1) =
   map R3Reference.type (R3NgModuleMetadata.declarations m2) /\
   map R3Reference.type (R3NgModuleMetadata.imports m1) =
   map R3Reference.type (R3NgModuleMetadata.imports m2) /\
   map R3Reference.type (R3NgModuleMetadata.exports m1) =
   map R3Reference.type (R3NgModuleMetadata.exports m2)).
Proof.
  split; [|split].
  - intros [|r rs]; split; intros H; try reflexivity; discriminate.
  - intros a b. split; [apply tupleTypeOf_inj | apply tupleTypeOf_map_type].
  - unfold createNgModuleType, o.importExpr. split.
    + intros H. injection H as Ht Hd Hi He.
      repeat split; try exact Ht; now apply tupleTypeOf_inj.
    + intros (Ht & Hd & Hi & He). rewrite Ht.
      rewrite (tupleTypeOf_map_type _ _ Hd), (tupleTypeOf_map_type _ _ Hi),
        (tupleTypeOf_map_type _ _ He).
      reflexivity.
Qed.

Lemma createNgModuleType_eq_iff_witness :
  createNgModuleType
    (Sample.meta [Sample.A] [Sample.B] [] [] Inline true None None) =
  createNgModuleType
    (Sample.meta [] [R3Reference.mk (o.ReadVarExpr "other")
                       (o.ReadVarExpr "B_t")] [] [] Omit false None None).
Proof.
  apply (proj2 (proj2 (proj2 (createNgModuleType_eq_iff
           (Sample.meta [Sample.A] [Sample.B] [] [] Inline true None None)
           (Sample.meta [] [R3Reference.mk (o.ReadVarExpr "other")
                              (o.ReadVarExpr "B_t")] [] [] Omit false
              None None))))).
  repeat split.
Defined.

(** ** Forward declarations change values only *)

(** X16.  [containsForwardDecls] decides how references are lowered and
    nothing else: flipping it keeps the keys of the main map, the values of
    [type], [schemas] and [id], the type annotation, the number of
    statements, the keys of the scope map and the sequences that are
    lowered. *)
Theorem compileNgModule_forward_decls_keep_shape (meta : R3NgModuleMetadata.t)
  (fwd : bool) :
  keys (mainMap (withContainsForwardDecls meta fwd)) = keys (mainMap meta) /\
  (forall key, In key ["type"; "schemas"; "id"] ->
     lookup key (mainMap (withContainsForwardDecls meta fwd)) =
     lookup key (mainMap meta)) /\
  R3CompiledExpression.type
    (compileNgModule (withContainsForwardDecls meta fwd)) =
  R3CompiledExpression.type (compileNgModule meta) /\
  length (emittedStatements (withContainsForwardDecls meta fwd)) =
  length (emittedStatements meta) /\
  keys (scopeMapOf
          (generateSetNgModuleScopeCall (withContainsForwardDecls meta fwd))) =
  keys (scopeMapOf (generateSetNgModuleScopeCall meta)) /\
  map RefsCall.refs (refsToArray_calls (withContainsForwardDecls meta fwd)) =
  map RefsCall.refs (refsToArray_calls meta).
Proof.
  rewrite !mainMap_entries, !emittedStatements_shape, !refsToArray_calls_shape.
  unfold compileNgModule, generateSetNgModuleScopeCall.
  rewrite !compileNgModule_traced_shape,
    !generateSetNgModuleScopeCall_traced_shape.
  unfold mainEntries, schemasEntries, idEntries, scopeStatements,
    idStatements, scopeEntries, scopeFields, callsNonEmpty.
  destruct meta as [ty ity aty bs ds ims exs m f sch i].
  cbn [fst snd R3CompiledExpression.type withContainsForwardDecls
       R3NgModuleMetadata.type R3NgModuleMetadata.internalType
       R3NgModuleMetadata.adjacentType R3NgModuleMetadata.bootstrap
       R3NgModuleMetadata.declarations R3NgModuleMetadata.imports
       R3NgModuleMetadata.exports R3NgModuleMetadata.selectorScopeMode
       R3NgModuleMetadata.containsForwardDecls R3NgModuleMetadata.schemas
       R3NgModuleMetadata.id].
  split; [|split; [|split; [|split; [|split]]]].
  - destruct bs, ds, ims, exs, m, sch as [[|]|], i; reflexivity.
  - intros key [<-|[<-|[<-|[]]]];
      destruct bs, ds, ims, exs, m, sch as [[|]|], i; reflexivity.
  - reflexivity.
  - destruct ds, ims, exs, m, i; reflexivity.
  - destruct ds, ims, exs; reflexivity.
  - rewrite !map_map. reflexivity.
Qed.

Lemma compileNgModule_forward_decls_keep_shape_witness :
  lookup "schemas"
    (mainMap
       (Sample.meta [Sample.A] [] [] [] Inline true (Some [Sample.B]) None)) =
  lookup "schemas"
    (mainMap
       (Sample.meta [Sample.A] [] [] [] Inline false (Some [Sample.B]) None)).
Proof.
  apply (proj1 (proj2 (compileNgModule_forward_decls_keep_shape
           (Sample.meta [Sample.A] [] [] [] Inline false (Some [Sample.B])
              None) true)) "schemas").
  right. left. reflexivity.
Defined.
